(** * SpatialNavigator: the recursive zoom hierarchy of the TOS concept demo

    A shallow embedding of [ZoomDefinitions.h] and [SpatialNavigator.cpp]
    (directory [concepts/cpp_nav]) and the properties of its zoom-level
    state machine.

    Conventions of the embedding:
    - a C++ [int] is a [Z]; the navigator only stores, compares and takes
      [% 2] of its integers, so no operation can leave the 32-bit range
      (see [call_in_range]); results proved for every [Z] hold for every
      [int];
    - [a % b] on [int] truncates towards zero: it is [Z.rem];
    - a [void] member function that assigns to the members and writes to
      [std::cout] is a function from the object before the call to the
      object after it, paired with the console output of the call;
    - a [const] member function takes the object and returns its result. *)

From Stdlib Require Import ZArith List String Bool Lia.
Import ListNotations.

Open Scope Z_scope.

(** ** ZoomDefinitions.h *)

Inductive ZoomLevel : Type :=
| LEVEL_1_ROOT
| LEVEL_2_SECTOR
| LEVEL_3_FOCUS
| LEVEL_3A_PICKER.

(** [operator==] on the scoped enumeration. *)
Definition ZoomLevel_eqb (a b : ZoomLevel) : bool :=
  match a, b with
  | LEVEL_1_ROOT, LEVEL_1_ROOT
  | LEVEL_2_SECTOR, LEVEL_2_SECTOR
  | LEVEL_3_FOCUS, LEVEL_3_FOCUS
  | LEVEL_3A_PICKER, LEVEL_3A_PICKER => true
  | _, _ => false
  end.

(** The conversion [(int)level]: enumerators count from zero in
    declaration order. *)
Definition ZoomLevel_to_int (level : ZoomLevel) : Z :=
  match level with
  | LEVEL_1_ROOT => 0
  | LEVEL_2_SECTOR => 1
  | LEVEL_3_FOCUS => 2
  | LEVEL_3A_PICKER => 3
  end.

(** The [default] case of the [switch] answers values outside the four
    enumerators, which the inductive type does not have. *)
Definition zoomLevelToString (level : ZoomLevel) : string :=
  match level with
  | LEVEL_1_ROOT => "Level 1: Root (Overview)"
  | LEVEL_2_SECTOR => "Level 2: Sector (Group)"
  | LEVEL_3_FOCUS => "Level 3: Focus (App)"
  | LEVEL_3A_PICKER => "Level 3a: Picker (Windows)"
  end.

(** ** Integers and console output *)

Definition INT_MIN : Z := - 2 ^ 31.
Definition INT_MAX : Z := 2 ^ 31 - 1.

Definition is_int (z : Z) : Prop := INT_MIN <= z <= INT_MAX.

(** What one [<<] sends to [std::cout]. *)
Inductive Chunk : Type :=
| Str (s : string)
| Int (n : Z)
| Endl.

Definition Console : Type := list Chunk.

(** ** SpatialNavigator.h: the object *)

Record SpatialNavigator : Type := mkNav {
  m_currentLevel : ZoomLevel;
  m_activeSectorIndex : Z;
  m_activeAppIndex : Z;
  m_activeWindowIndex : Z
}.

(** Assignments to one member. *)
Definition set_currentLevel (v : ZoomLevel) (this : SpatialNavigator) :=
  mkNav v (m_activeSectorIndex this) (m_activeAppIndex this)
        (m_activeWindowIndex this).

Definition set_activeSectorIndex (v : Z) (this : SpatialNavigator) :=
  mkNav (m_currentLevel this) v (m_activeAppIndex this)
        (m_activeWindowIndex this).

Definition set_activeAppIndex (v : Z) (this : SpatialNavigator) :=
  mkNav (m_currentLevel this) (m_activeSectorIndex this) v
        (m_activeWindowIndex this).

Definition set_activeWindowIndex (v : Z) (this : SpatialNavigator) :=
  mkNav (m_currentLevel this) (m_activeSectorIndex this)
        (m_activeAppIndex this) v.

(** ** SpatialNavigator.cpp: the member functions *)

(** The constructor's member initialisers. *)
Definition newSpatialNavigator : SpatialNavigator :=
  mkNav LEVEL_1_ROOT (-1) (-1) (-1).

Definition getCurrentLevel (this : SpatialNavigator) : ZoomLevel :=
  m_currentLevel this.

Definition printStatus (this : SpatialNavigator) : Console :=
  [Str "Current State: "; Int (ZoomLevel_to_int (m_currentLevel this)); Endl].

Definition zoomIn (targetIndex : Z) (this : SpatialNavigator)
  : SpatialNavigator * Console :=
  let '(this', out) :=
    if ZoomLevel_eqb (m_currentLevel this) LEVEL_1_ROOT then
      (set_currentLevel LEVEL_2_SECTOR
         (set_activeSectorIndex targetIndex this),
       [Str "[Zoom In] Entering Sector "; Int targetIndex; Endl])
    else if ZoomLevel_eqb (m_currentLevel this) LEVEL_2_SECTOR then
      (set_currentLevel LEVEL_3_FOCUS
         (set_activeAppIndex targetIndex this),
       [Str "[Zoom In] Focusing on App "; Int targetIndex;
        Str " (Morphing SSD Frame...)"; Endl])
    else if ZoomLevel_eqb (m_currentLevel this) LEVEL_3A_PICKER then
      (set_currentLevel LEVEL_3_FOCUS
         (set_activeWindowIndex targetIndex this),
       [Str "[Zoom In] Selected Window "; Int targetIndex;
        Str " from Picker."; Endl])
    else
      (this,
       [Str "[Navigate] Already at deepest level (Level 3 Focus)."; Endl])
  in (this', out ++ printStatus this').

(** The local [hasMultipleWindows] of [zoomOut]: the mock condition
    [m_activeAppIndex % 2 == 0]. *)
Definition hasMultipleWindows (activeAppIndex : Z) : bool :=
  Z.rem activeAppIndex 2 =? 0.

Definition zoomOut (this : SpatialNavigator) : SpatialNavigator * Console :=
  let '(this', out) :=
    if ZoomLevel_eqb (m_currentLevel this) LEVEL_3_FOCUS then
      if hasMultipleWindows (m_activeAppIndex this) then
        (set_currentLevel LEVEL_3A_PICKER this,
         [Str "[Zoom Out] Multiple windows detected -> Entering Window Picker (Level 3a).";
          Endl])
      else
        (set_activeAppIndex (-1) (set_currentLevel LEVEL_2_SECTOR this),
         [Str "[Zoom Out] Returning to Sector View (Level 2)."; Endl])
    else if ZoomLevel_eqb (m_currentLevel this) LEVEL_3A_PICKER then
      (set_activeAppIndex (-1) (set_currentLevel LEVEL_2_SECTOR this),
       [Str "[Zoom Out] Returning to Sector View (Level 2) from Picker.";
        Endl])
    else if ZoomLevel_eqb (m_currentLevel this) LEVEL_2_SECTOR then
      (set_activeSectorIndex (-1) (set_currentLevel LEVEL_1_ROOT this),
       [Str "[Zoom Out] Returning to Root Overview (Level 1)."; Endl])
    else
      (this, [Str "[Navigate] Already at top level (Level 1 Root)."; Endl])
  in (this', out ++ printStatus this').

Definition splitView (this : SpatialNavigator) : SpatialNavigator * Console :=
  if ZoomLevel_eqb (m_currentLevel this) LEVEL_3_FOCUS then
    (this,
     [Str "[Split] Splitting Viewport..."; Endl;
      Str "  -> Left Pane: Retains App Focus (Level 3)"; Endl;
      Str "  -> Right Pane: Reverts to Level 2 (Sector Selection)"; Endl])
  else
    (this,
     [Str "[Split] Can only split from a focused app (Level 3)."; Endl]).

(** ** Sequences of calls on one navigator *)

(** A call of one public member function by the surrounding layer. *)
Inductive Call : Type :=
| ZoomIn (targetIndex : Z)
| ZoomOut
| SplitView
| GetCurrentLevel
| PrintStatus.

Definition call (c : Call) (this : SpatialNavigator)
  : SpatialNavigator * Console :=
  match c with
  | ZoomIn targetIndex => zoomIn targetIndex this
  | ZoomOut => zoomOut this
  | SplitView => splitView this
  | GetCurrentLevel => (this, [])
  | PrintStatus => (this, printStatus this)
  end.

(** The object after a call. *)
Definition after (c : Call) (this : SpatialNavigator) : SpatialNavigator :=
  fst (call c this).

(** Calls in program order, the console output concatenated. *)
Fixpoint run (cs : list Call) (this : SpatialNavigator)
  : SpatialNavigator * Console :=
  match cs with
  | [] => (this, [])
  | c :: cs' =>
      let '(this1, out1) := call c this in
      let '(this2, out2) := run cs' this1 in
      (this2, out1 ++ out2)
  end.

(** The objects a freshly constructed navigator can become by calls that
    the caller's policy [allowed] admits in the state they are issued in. *)
Inductive reachable_by (allowed : SpatialNavigator -> Call -> Prop)
  : SpatialNavigator -> Prop :=
| reach_new : reachable_by allowed newSpatialNavigator
| reach_call (this : SpatialNavigator) (c : Call) :
    reachable_by allowed this ->
    allowed this c ->
    reachable_by allowed (after c this).

(** Any call with any argument. *)
Definition any_call (this : SpatialNavigator) (c : Call) : Prop := True.

Definition reachable : SpatialNavigator -> Prop := reachable_by any_call.

(** ** Vocabulary of the specification *)

(** An index is set when it differs from the constructor's [-1]. *)
Definition is_set (index : Z) : Prop := index <> -1.

Definition is_set_dec (index : Z) : {is_set index} + {~ is_set index}.
Proof.
  unfold is_set. destruct (Z.eq_dec index (-1)); [right | left]; tauto.
Defined.

(** The stated invariant on which indices a level carries. *)
Definition index_invariant (this : SpatialNavigator) : Prop :=
  (is_set (m_activeSectorIndex this) <->
     m_currentLevel this = LEVEL_2_SECTOR \/
     m_currentLevel this = LEVEL_3_FOCUS \/
     m_currentLevel this = LEVEL_3A_PICKER) /\
  (is_set (m_activeAppIndex this) <->
     m_currentLevel this = LEVEL_3_FOCUS \/
     m_currentLevel this = LEVEL_3A_PICKER).

(** A caller that validates the indices it selects: a sector or an
    application is never chosen with the value that means "none". *)
Definition validated (this : SpatialNavigator) (c : Call) : Prop :=
  match c with
  | ZoomIn targetIndex =>
      m_currentLevel this = LEVEL_1_ROOT \/
      m_currentLevel this = LEVEL_2_SECTOR ->
      targetIndex <> -1
  | _ => True
  end.

(** Depth of a level in the hierarchy, the picker sitting between a sector
    and a focused window: Root < Sector < Picker < Focus. *)
Definition depth (level : ZoomLevel) : nat :=
  match level with
  | LEVEL_1_ROOT => 0
  | LEVEL_2_SECTOR => 1
  | LEVEL_3A_PICKER => 2
  | LEVEL_3_FOCUS => 3
  end.

(** All members within the range of [int]. *)
Definition in_range (this : SpatialNavigator) : Prop :=
  is_int (m_activeSectorIndex this) /\
  is_int (m_activeAppIndex this) /\
  is_int (m_activeWindowIndex this).

Definition int_call (c : Call) : Prop :=
  match c with
  | ZoomIn targetIndex => is_int targetIndex
  | _ => True
  end.

(** The demonstration driver of [main.cpp] after start-up. *)
Definition main_calls : list Call :=
  [PrintStatus; ZoomIn 0; ZoomIn 1; SplitView; ZoomOut].

(** ** main.cpp *)

(** The driver: the banner, then each user action announced on a line of
    its own (after an empty line) before the navigator is called; the
    result is the console output and the exit status. *)
Definition newline : string := String (Ascii.ascii_of_nat 10) EmptyString.

Definition main : Console * Z :=
  let out0 :=
    [Str "=========================================="; Endl;
     Str "TOS Traditional Environment - Concept Demo"; Endl;
     Str "=========================================="; Endl] in
  let nav := newSpatialNavigator in
  let out1 :=
    [Str (newline ++ "[User Action] System Startup"); Endl]
      ++ printStatus nav in
  let '(nav, zoomed) := zoomIn 0 nav in
  let out2 :=
    [Str (newline ++ "[User Action] Click 'Work' Sector (Index 0)"); Endl]
      ++ zoomed in
  let '(nav, zoomed) := zoomIn 1 nav in
  let out3 :=
    [Str (newline ++ "[User Action] Launch 'Terminal' (Index 1)"); Endl]
      ++ zoomed in
  let '(nav, split) := splitView nav in
  let out4 :=
    [Str (newline ++ "[User Action] Split Screen (Trigger tiling)"); Endl]
      ++ split in
  let '(nav, zoomed) := zoomOut nav in
  let out5 :=
    [Str (newline ++ "[User Action] Zoom Out (Gesture/Key)"); Endl]
      ++ zoomed in
  (out0 ++ out1 ++ out2 ++ out3 ++ out4 ++ out5, 0).

(** ** Further vocabulary *)

(** The arguments of the [zoomIn] calls of a sequence, in order. *)
Fixpoint zoomIn_arguments (cs : list Call) : list Z :=
  match cs with
  | [] => []
  | ZoomIn targetIndex :: cs' => targetIndex :: zoomIn_arguments cs'
  | _ :: cs' => zoomIn_arguments cs'
  end.

(** What the level says about the indices in a state the member
    functions can produce. *)
Definition consistent (this : SpatialNavigator) : Prop :=
  match m_currentLevel this with
  | LEVEL_1_ROOT => m_activeSectorIndex this = -1 /\ m_activeAppIndex this = -1
  | LEVEL_2_SECTOR => m_activeAppIndex this = -1
  | LEVEL_3_FOCUS => True
  | LEVEL_3A_PICKER => Z.even (m_activeAppIndex this) = true
  end.

(** Calls that lead the new navigator to Sector [s] with window index [w]:
    into application 0, through its picker, and out again. *)
Definition through_picker (s w : Z) : list Call :=
  [ZoomIn s; ZoomIn 0; ZoomOut; ZoomIn w; ZoomOut; ZoomOut].

(** Calls that lead the new navigator to a given consistent state. *)
Definition path_to (this : SpatialNavigator) : list Call :=
  let s := m_activeSectorIndex this in
  let a := m_activeAppIndex this in
  let w := m_activeWindowIndex this in
  match m_currentLevel this with
  | LEVEL_1_ROOT => through_picker 0 w ++ [ZoomOut]
  | LEVEL_2_SECTOR => through_picker s w
  | LEVEL_3_FOCUS => through_picker s w ++ [ZoomIn a]
  | LEVEL_3A_PICKER => through_picker s w ++ [ZoomIn a; ZoomOut]
  end.

(** The three numbers of a navigator all satisfy [Q]. *)
Definition indices_all (Q : Z -> Prop) (this : SpatialNavigator) : Prop :=
  Q (m_activeSectorIndex this) /\
  Q (m_activeAppIndex this) /\
  Q (m_activeWindowIndex this).

(** Calls whose output includes the status line. *)
Definition prints_status (c : Call) : bool :=
  match c with
  | ZoomIn _ | ZoomOut | PrintStatus => true
  | SplitView | GetCurrentLevel => false
  end.

(** The number of the last status line on a console, if there is one: the
    integer that follows the last ["Current State: "]. *)
Fixpoint last_status (out : Console) : option Z :=
  match out with
  | [] => None
  | Str s :: rest =>
      match last_status rest with
      | Some n => Some n
      | None =>
          match rest with
          | Int n :: _ =>
              if String.eqb s "Current State: " then Some n else None
          | _ => None
          end
      end
  | _ :: rest => last_status rest
  end.

(** ** Basic facts *)

(** The parity test is kept folded while the [if] chains are evaluated. *)
Arguments hasMultipleWindows : simpl never.

(** Case analysis on the level of a navigator, the way the [if] chains of
    the member functions branch. *)
Ltac by_level this :=
  destruct this as [[| | |] sectorIndex appIndex windowIndex];
  unfold after, call, zoomIn, zoomOut, splitView in *; cbn in *.

Lemma ZoomLevel_eqb_eq (a b : ZoomLevel) : ZoomLevel_eqb a b = true <-> a = b.
Proof. destruct a, b; cbn; split; congruence. Qed.

(** Truncating remainder by two only takes the values -1, 0 and 1. *)
Lemma rem_2_cases (a : Z) : Z.rem a 2 = -1 \/ Z.rem a 2 = 0 \/ Z.rem a 2 = 1.
Proof.
  assert (H : Z.abs (Z.rem a 2) < Z.abs 2) by (apply Z.rem_bound_abs; lia).
  lia.
Qed.

(** The mock condition is evenness, also on negative indices. *)
Lemma hasMultipleWindows_even (a : Z) : hasMultipleWindows a = Z.even a.
Proof.
  unfold hasMultipleWindows.
  rewrite (Z.quot_rem' a 2) at 2.
  rewrite Z.add_comm, Z.even_add_mul_2.
  destruct (rem_2_cases a) as [-> | [-> | ->]]; reflexivity.
Qed.

Lemma hasMultipleWindows_none : hasMultipleWindows (-1) = false.
Proof. reflexivity. Qed.

(** [zoomOut] decides on the level alone everywhere but at Focus. *)
Lemma zoomOut_focus (this : SpatialNavigator) :
  m_currentLevel this = LEVEL_3_FOCUS ->
  fst (zoomOut this) =
    if hasMultipleWindows (m_activeAppIndex this)
    then set_currentLevel LEVEL_3A_PICKER this
    else set_activeAppIndex (-1) (set_currentLevel LEVEL_2_SECTOR this).
Proof.
  intros Hlevel. unfold zoomOut. rewrite Hlevel. cbn.
  destruct (hasMultipleWindows (m_activeAppIndex this)); reflexivity.
Qed.

(** No member function ever assigns to the window index but [zoomIn] at
    the picker. *)
Lemma zoomOut_window (this : SpatialNavigator) :
  m_activeWindowIndex (fst (zoomOut this)) = m_activeWindowIndex this.
Proof.
  by_level this; try reflexivity.
  destruct (hasMultipleWindows appIndex); reflexivity.
Qed.

Lemma splitView_state (this : SpatialNavigator) : fst (splitView this) = this.
Proof. unfold splitView. destruct (ZoomLevel_eqb _ _); reflexivity. Qed.

(** Reading members changes nothing. *)
Lemma after_reader (this : SpatialNavigator) :
  after SplitView this = this /\
  after GetCurrentLevel this = this /\
  after PrintStatus this = this.
Proof. unfold after; cbn. rewrite splitView_state. auto. Qed.

(** [reachable_by] is monotone in the caller's policy. *)
Lemma reachable_by_weaken (p q : SpatialNavigator -> Call -> Prop) :
  (forall this c, p this c -> q this c) ->
  forall this, reachable_by p this -> reachable_by q this.
Proof.
  intros Hpq this Hreach.
  induction Hreach as [| this c _ IH Hp].
  - apply reach_new.
  - apply reach_call; [exact IH | apply Hpq; exact Hp].
Qed.

(** Reachable objects are the results of [run] on the new navigator. *)
Lemma run_app (cs1 cs2 : list Call) (this : SpatialNavigator) :
  fst (run (cs1 ++ cs2) this) = fst (run cs2 (fst (run cs1 this))).
Proof.
  revert this.
  induction cs1 as [| c cs1 IH]; intros this; cbn.
  - reflexivity.
  - destruct (call c this) as [this1 out1] eqn:Hcall.
    specialize (IH this1).
    destruct (run (cs1 ++ cs2) this1) as [this2 out2].
    destruct (run cs1 this1) as [this3 out3].
    cbn in *. exact IH.
Qed.

Lemma run_reachable (cs : list Call) :
  reachable (fst (run cs newSpatialNavigator)).
Proof.
  induction cs as [| c cs IH] using rev_ind.
  - apply reach_new.
  - rewrite run_app. cbn.
    destruct (call c (fst (run cs newSpatialNavigator))) as [this1 out1] eqn:Hc.
    cbn. replace this1 with (after c (fst (run cs newSpatialNavigator)))
      by (unfold after; rewrite Hc; reflexivity).
    apply reach_call; [exact IH | exact I].
Qed.

Lemma reachable_run (this : SpatialNavigator) :
  reachable this -> exists cs, this = fst (run cs newSpatialNavigator).
Proof.
  intros Hreach.
  induction Hreach as [| this c _ [cs ->] _].
  - exists []. reflexivity.
  - exists (cs ++ [c]). rewrite run_app. cbn. unfold after.
    destruct (call c (fst (run cs newSpatialNavigator))). reflexivity.
Qed.

(** The members stay within [int] when the arguments are. *)
Lemma is_int_none : is_int (-1).
Proof. unfold is_int, INT_MIN, INT_MAX. lia. Qed.

Lemma call_in_range (c : Call) (this : SpatialNavigator) :
  int_call c -> in_range this -> in_range (after c this).
Proof.
  pose proof is_int_none as Hnone.
  unfold in_range.
  destruct c as [targetIndex | | | |]; intros Hc (Hsector & Happ & Hwindow).
  - by_level this; auto.
  - by_level this; auto.
    destruct (hasMultipleWindows appIndex); cbn; auto.
  - unfold after; cbn. rewrite splitView_state. auto.
  - auto.
  - auto.
Qed.

(** The run of [main.cpp]: sector 0, application 1, a split, and one zoom
    out, which finds an odd application index and returns to the sector. *)
Example main_final_state :
  fst (run main_calls newSpatialNavigator) = mkNav LEVEL_2_SECTOR 0 (-1) (-1).
Proof. reflexivity. Qed.

Example main_last_lines :
  skipn 22 (snd (run main_calls newSpatialNavigator)) =
    [Str "[Zoom Out] Returning to Sector View (Level 2)."; Endl;
     Str "Current State: "; Int 1; Endl].
Proof. reflexivity. Qed.

(** ** The index invariant (C1) *)

(** Whether an index holds the value -1 is decided first; the rest is
    propositional reasoning on the levels. *)
Ltac decide_index i :=
  is_var i;
  lazymatch goal with
  | _ : i <> -1 |- _ => fail
  | _ => destruct (Z.eq_dec i (-1)); [subst i |]
  end.

Ltac solve_levels :=
  solve [ unfold index_invariant, is_set in *; cbn in *;
          repeat match goal with
                 | |- context [?i <> -1] => decide_index i
                 | H : context [?i <> -1] |- _ => decide_index i
                 end;
          intuition (try discriminate; try congruence) ].

(** One call of a validating caller keeps the invariant. *)
Lemma index_invariant_step (c : Call) (this : SpatialNavigator) :
  validated this c -> index_invariant this -> index_invariant (after c this).
Proof.
  destruct c as [targetIndex | | | |]; intros Hvalid Hinv.
  - by_level this; solve_levels.
  - by_level this; try solve_levels.
    destruct (hasMultipleWindows appIndex); solve_levels.
  - unfold after; cbn. rewrite splitView_state. exact Hinv.
  - exact Hinv.
  - exact Hinv.
Qed.

(** The parts of the invariant that need no validation: nothing is
    selected at Root, and no application is selected above Focus. *)
Lemma unset_above (this : SpatialNavigator) :
  reachable this ->
  (m_currentLevel this = LEVEL_1_ROOT -> m_activeSectorIndex this = -1) /\
  (m_currentLevel this = LEVEL_1_ROOT \/ m_currentLevel this = LEVEL_2_SECTOR ->
   m_activeAppIndex this = -1).
Proof.
  intros Hreach.
  induction Hreach as [| this c _ IH _].
  - cbn. auto.
  - destruct c as [targetIndex | | | |].
    + by_level this; solve_levels.
    + by_level this; try solve_levels.
      destruct (hasMultipleWindows appIndex); solve_levels.
    + unfold after; cbn. rewrite splitView_state. exact IH.
    + exact IH.
    + exact IH.
Qed.

(** C1, refuted as stated: an unvalidated [zoomIn(-1)] on the new navigator
    reaches level Sector while [activeSectorIndex] holds the value that
    means "none", so "set iff level is Sector, Focus or Picker" fails in a
    reachable state. *)
Lemma index_invariant_fails_on_sentinel_argument :
  reachable (after (ZoomIn (-1)) newSpatialNavigator) /\
  after (ZoomIn (-1)) newSpatialNavigator = mkNav LEVEL_2_SECTOR (-1) (-1) (-1) /\
  ~ index_invariant (after (ZoomIn (-1)) newSpatialNavigator).
Proof.
  split; [| split].
  - apply reach_call; [apply reach_new | exact I].
  - reflexivity.
  - unfold index_invariant, is_set; cbn. intros [[_ Hsector] _].
    apply Hsector; auto.
Qed.

(** C1, as amended: in every state reachable from the new navigator by
    [zoomIn], [zoomOut], [splitView] (and the read-only accessors) where no
    [zoomIn] issued at Root or Sector passes -1, [activeSectorIndex] is set
    iff the level is Sector, Focus or Picker, and [activeAppIndex] is set
    iff the level is Focus or Picker. *)
Theorem index_invariant_reachable_validated (this : SpatialNavigator) :
  reachable_by validated this -> index_invariant this.
Proof.
  intros Hreach.
  induction Hreach as [| this c _ IH Hvalid].
  - solve_levels.
  - apply index_invariant_step; assumption.
Qed.

Lemma index_invariant_reachable_validated_witness :
  reachable_by validated (mkNav LEVEL_3_FOCUS 0 1 (-1)) /\
  index_invariant (mkNav LEVEL_3_FOCUS 0 1 (-1)).
Proof.
  assert (Hreach : reachable_by validated (mkNav LEVEL_3_FOCUS 0 1 (-1))).
  { change (reachable_by validated
              (after (ZoomIn 1) (after (ZoomIn 0) newSpatialNavigator))).
    apply reach_call; [apply reach_call; [apply reach_new |] |];
      cbn; intros _; discriminate. }
  split; [exact Hreach |].
  apply (index_invariant_reachable_validated _ Hreach).
Defined.

(** ** Clearing on the way out (C2) *)

(** The sector index assigned on entering a sector is cleared on leaving
    it, and the application index is cleared on every return to Sector. *)
Lemma zoomOut_clears_sector (this : SpatialNavigator) :
  m_currentLevel this = LEVEL_2_SECTOR ->
  m_activeSectorIndex (fst (zoomOut this)) = -1.
Proof. by_level this; intros H; try discriminate H; reflexivity. Qed.

Lemma zoomOut_clears_app (this : SpatialNavigator) :
  m_currentLevel (fst (zoomOut this)) = LEVEL_2_SECTOR ->
  m_activeAppIndex (fst (zoomOut this)) = -1.
Proof.
  by_level this; intros H; try discriminate H; try reflexivity.
  destruct (hasMultipleWindows appIndex); cbn in *;
    [discriminate H | reflexivity].
Qed.

(** C2, evaluated on the code: the window index assigned by the Picker ->
    Focus [zoomIn(5)] is still 5 after the [zoomOut] that leaves Focus, and
    stays 5 all the way back to Root and into the next application. *)
Theorem window_index_survives_zoomOut :
  let focus :=
    fst (run [ZoomIn 0; ZoomIn 0; ZoomOut; ZoomIn 5] newSpatialNavigator) in
  reachable focus /\
  focus = mkNav LEVEL_3_FOCUS 0 0 5 /\
  fst (zoomOut focus) = mkNav LEVEL_3A_PICKER 0 0 5 /\
  fst (run [ZoomOut; ZoomOut] focus) = mkNav LEVEL_2_SECTOR 0 (-1) 5 /\
  fst (run [ZoomOut; ZoomOut; ZoomOut] focus) = mkNav LEVEL_1_ROOT (-1) (-1) 5 /\
  fst (run [ZoomOut; ZoomOut; ZoomIn 1] focus) = mkNav LEVEL_3_FOCUS 0 1 5 /\
  fst (run [ZoomOut; ZoomOut; ZoomIn 1; ZoomOut] focus) =
    mkNav LEVEL_2_SECTOR 0 (-1) 5.
Proof.
  intros focus. split; [apply run_reachable |].
  repeat split; reflexivity.
Qed.

(** ** Single transitions (C3 - C8) *)

(** C3: at Focus, [zoomOut] moves to Picker and keeps every index when the
    window-count predicate holds of [activeAppIndex] (in this code: the
    index is even), and otherwise moves to Sector with [activeAppIndex]
    reset to -1, the other two indices kept. *)
Theorem zoomOut_from_focus (this : SpatialNavigator) :
  m_currentLevel this = LEVEL_3_FOCUS ->
  hasMultipleWindows (m_activeAppIndex this) = Z.even (m_activeAppIndex this) /\
  (Z.even (m_activeAppIndex this) = true ->
   fst (zoomOut this) =
     mkNav LEVEL_3A_PICKER (m_activeSectorIndex this)
           (m_activeAppIndex this) (m_activeWindowIndex this)) /\
  (Z.even (m_activeAppIndex this) = false ->
   fst (zoomOut this) =
     mkNav LEVEL_2_SECTOR (m_activeSectorIndex this)
           (-1) (m_activeWindowIndex this)).
Proof.
  intros Hlevel.
  split; [apply hasMultipleWindows_even |].
  rewrite (zoomOut_focus this Hlevel), hasMultipleWindows_even.
  split; intros ->; reflexivity.
Qed.

Lemma zoomOut_from_focus_witness :
  m_currentLevel (mkNav LEVEL_3_FOCUS 3 4 (-1)) = LEVEL_3_FOCUS /\
  fst (zoomOut (mkNav LEVEL_3_FOCUS 3 4 (-1))) =
    mkNav LEVEL_3A_PICKER 3 4 (-1) /\
  fst (zoomOut (mkNav LEVEL_3_FOCUS 3 (-7) 2)) =
    mkNav LEVEL_2_SECTOR 3 (-1) 2.
Proof.
  split; [reflexivity | split].
  - apply (zoomOut_from_focus (mkNav LEVEL_3_FOCUS 3 4 (-1)) eq_refl).
    reflexivity.
  - apply (zoomOut_from_focus (mkNav LEVEL_3_FOCUS 3 (-7) 2) eq_refl).
    reflexivity.
Defined.

(** C4: at Picker, [zoomIn(w)] moves to Focus with [activeWindowIndex = w]
    and leaves [activeSectorIndex] and [activeAppIndex] as they were. *)
Theorem zoomIn_from_picker (w : Z) (this : SpatialNavigator) :
  m_currentLevel this = LEVEL_3A_PICKER ->
  fst (zoomIn w this) =
    mkNav LEVEL_3_FOCUS (m_activeSectorIndex this) (m_activeAppIndex this) w.
Proof.
  intros Hlevel. unfold zoomIn. rewrite Hlevel. reflexivity.
Qed.

Lemma zoomIn_from_picker_witness :
  m_currentLevel (mkNav LEVEL_3A_PICKER 0 2 (-1)) = LEVEL_3A_PICKER /\
  fst (zoomIn 7 (mkNav LEVEL_3A_PICKER 0 2 (-1))) = mkNav LEVEL_3_FOCUS 0 2 7.
Proof.
  split; [reflexivity |].
  apply (zoomIn_from_picker 7 (mkNav LEVEL_3A_PICKER 0 2 (-1))).
  reflexivity.
Defined.

(** C5: from any state at Root, [zoomIn(s)] followed by [zoomOut()] ends at
    Root with [activeSectorIndex] unset and the other indices untouched; from
    a Root state whose sector index is unset, as the new navigator's is, the
    result is the starting state itself. *)
Theorem zoomIn_zoomOut_at_root (s : Z) (this : SpatialNavigator) :
  m_currentLevel this = LEVEL_1_ROOT ->
  let back := fst (zoomOut (fst (zoomIn s this))) in
  m_currentLevel back = LEVEL_1_ROOT /\
  m_activeSectorIndex back = -1 /\
  m_activeAppIndex back = m_activeAppIndex this /\
  m_activeWindowIndex back = m_activeWindowIndex this /\
  (m_activeSectorIndex this = -1 -> back = this).
Proof.
  intros Hlevel back. subst back.
  unfold zoomIn. rewrite Hlevel. cbn.
  repeat split.
  intros Hsector. destruct this; cbn in *. subst. reflexivity.
Qed.

Lemma zoomIn_zoomOut_at_root_witness :
  m_currentLevel newSpatialNavigator = LEVEL_1_ROOT /\
  fst (zoomOut (fst (zoomIn 42 newSpatialNavigator))) = newSpatialNavigator.
Proof.
  split; [reflexivity |].
  apply (zoomIn_zoomOut_at_root 42 newSpatialNavigator); reflexivity.
Defined.

(** C6: at Focus, [zoomIn(x)] leaves the whole state as it was. *)
Theorem zoomIn_at_focus (x : Z) (this : SpatialNavigator) :
  m_currentLevel this = LEVEL_3_FOCUS -> fst (zoomIn x this) = this.
Proof.
  intros Hlevel. unfold zoomIn. rewrite Hlevel. reflexivity.
Qed.

Lemma zoomIn_at_focus_witness :
  m_currentLevel (mkNav LEVEL_3_FOCUS 0 1 (-1)) = LEVEL_3_FOCUS /\
  fst (zoomIn 9 (mkNav LEVEL_3_FOCUS 0 1 (-1))) = mkNav LEVEL_3_FOCUS 0 1 (-1).
Proof.
  split; [reflexivity |].
  apply (zoomIn_at_focus 9 (mkNav LEVEL_3_FOCUS 0 1 (-1))). reflexivity.
Defined.

(** C7: at Root, [zoomOut()] leaves the whole state as it was. *)
Theorem zoomOut_at_root (this : SpatialNavigator) :
  m_currentLevel this = LEVEL_1_ROOT -> fst (zoomOut this) = this.
Proof.
  intros Hlevel. unfold zoomOut. rewrite Hlevel. reflexivity.
Qed.

Lemma zoomOut_at_root_witness :
  m_currentLevel newSpatialNavigator = LEVEL_1_ROOT /\
  fst (zoomOut newSpatialNavigator) = newSpatialNavigator.
Proof.
  split; [reflexivity |].
  apply (zoomOut_at_root newSpatialNavigator). reflexivity.
Defined.

(** C8: [splitView()] never changes the state: the level and the three
    indices after the call are those before it, at Focus (where it reports
    the two panes) and at every other level (where it reports the
    rejection). *)
Theorem splitView_frame (this : SpatialNavigator) :
  m_currentLevel (fst (splitView this)) = m_currentLevel this /\
  m_activeSectorIndex (fst (splitView this)) = m_activeSectorIndex this /\
  m_activeAppIndex (fst (splitView this)) = m_activeAppIndex this /\
  m_activeWindowIndex (fst (splitView this)) = m_activeWindowIndex this.
Proof.
  unfold splitView.
  destruct (ZoomLevel_eqb (m_currentLevel this) LEVEL_3_FOCUS);
    cbn; repeat split.
Qed.

(** ** The picker and the order of the levels (C9, C10) *)

Lemma picker_even_step (c : Call) (this : SpatialNavigator) :
  (m_currentLevel this = LEVEL_3A_PICKER ->
   hasMultipleWindows (m_activeAppIndex this) = true) ->
  m_currentLevel (after c this) = LEVEL_3A_PICKER ->
  hasMultipleWindows (m_activeAppIndex (after c this)) = true.
Proof.
  destruct c as [targetIndex | | | |]; intros Hinv.
  - by_level this; intros H; discriminate H.
  - by_level this; try (intros H; discriminate H).
    destruct (hasMultipleWindows appIndex) eqn:Hwindows; cbn;
      intros H; [exact Hwindows | discriminate H].
  - unfold after; cbn. rewrite splitView_state. exact Hinv.
  - exact Hinv.
  - exact Hinv.
Qed.

(** C9: in every reachable state at level Picker, [activeAppIndex % 2] is 0
    under truncating remainder, that is, the application index is even. *)
Theorem picker_app_even (this : SpatialNavigator) :
  reachable this ->
  m_currentLevel this = LEVEL_3A_PICKER ->
  Z.rem (m_activeAppIndex this) 2 = 0 /\ Z.even (m_activeAppIndex this) = true.
Proof.
  intros Hreach Hlevel.
  assert (Hwindows : hasMultipleWindows (m_activeAppIndex this) = true).
  { revert Hlevel.
    induction Hreach as [| this c _ IH _].
    - intros H; discriminate H.
    - apply picker_even_step. exact IH. }
  split.
  - apply Z.eqb_eq. exact Hwindows.
  - rewrite <- hasMultipleWindows_even. exact Hwindows.
Qed.

Lemma picker_app_even_witness :
  reachable (mkNav LEVEL_3A_PICKER 0 (-4) (-1)) /\
  m_currentLevel (mkNav LEVEL_3A_PICKER 0 (-4) (-1)) = LEVEL_3A_PICKER /\
  Z.rem (-4) 2 = 0 /\ Z.even (-4) = true.
Proof.
  assert (Hreach : reachable (mkNav LEVEL_3A_PICKER 0 (-4) (-1))).
  { exact (run_reachable [ZoomIn 0; ZoomIn (-4); ZoomOut]). }
  split; [exact Hreach | split; [reflexivity |]].
  apply (picker_app_even (mkNav LEVEL_3A_PICKER 0 (-4) (-1)) Hreach).
  reflexivity.
Defined.

(** C10: with the levels ordered Root < Sector < Picker < Focus, [zoomIn]
    never moves to a shallower level and [zoomOut] never moves to a deeper
    one, in every state and for every argument; each of them leaves the
    level fixed only at its boundary ([zoomIn] exactly at Focus, [zoomOut]
    exactly at Root) and everywhere else moves it strictly in its own
    direction. *)
Theorem zoom_monotone (targetIndex : Z) (this : SpatialNavigator) :
  (depth (m_currentLevel this) <=
     depth (m_currentLevel (fst (zoomIn targetIndex this))))%nat /\
  (depth (m_currentLevel (fst (zoomOut this))) <=
     depth (m_currentLevel this))%nat /\
  (m_currentLevel (fst (zoomIn targetIndex this)) = m_currentLevel this <->
   m_currentLevel this = LEVEL_3_FOCUS) /\
  (m_currentLevel (fst (zoomOut this)) = m_currentLevel this <->
   m_currentLevel this = LEVEL_1_ROOT) /\
  (m_currentLevel this <> LEVEL_3_FOCUS ->
   (depth (m_currentLevel this) <
      depth (m_currentLevel (fst (zoomIn targetIndex this))))%nat) /\
  (m_currentLevel this <> LEVEL_1_ROOT ->
   (depth (m_currentLevel (fst (zoomOut this))) <
      depth (m_currentLevel this))%nat).
Proof.
  by_level this;
    [ | | destruct (hasMultipleWindows appIndex); cbn | ];
    repeat split; intros; try lia; try congruence.
Qed.

(** ** Labels and the status line *)

(** The driver's output ends with the navigator back at the sector. *)
Example main_result :
  snd main = 0 /\
  skipn 38 (fst main) =
    [Str "[Zoom Out] Returning to Sector View (Level 2)."; Endl;
     Str "Current State: "; Int 1; Endl].
Proof. split; reflexivity. Qed.

(** X1: [zoomLevelToString] gives each level a label of its own: equal
    labels come from equal levels. *)
Theorem zoomLevelToString_injective (a b : ZoomLevel) :
  zoomLevelToString a = zoomLevelToString b -> a = b.
Proof.
  destruct a, b; cbn; intros H; try reflexivity; discriminate H.
Qed.

Lemma zoomLevelToString_injective_witness :
  zoomLevelToString LEVEL_3_FOCUS = zoomLevelToString LEVEL_3_FOCUS /\
  LEVEL_3_FOCUS = LEVEL_3_FOCUS.
Proof.
  split; [reflexivity |].
  apply (zoomLevelToString_injective LEVEL_3_FOCUS LEVEL_3_FOCUS).
  reflexivity.
Defined.

(** X2: the status line shows the level and nothing else: two navigators
    print the same status exactly when [getCurrentLevel] answers the same
    for both, whatever their indices. *)
Theorem printStatus_shows_level (a b : SpatialNavigator) :
  printStatus a = printStatus b <-> getCurrentLevel a = getCurrentLevel b.
Proof.
  unfold printStatus, getCurrentLevel. split.
  - intros H. injection H as H.
    destruct (m_currentLevel a), (m_currentLevel b);
      cbn in H; try reflexivity; discriminate H.
  - intros ->. reflexivity.
Qed.

(** Calls that print no status line leave the navigator as it is. *)
Lemma quiet_run (cs : list Call) (this : SpatialNavigator) :
  existsb prints_status cs = false -> run cs this = (this, snd (run cs this)).
Proof.
  revert this.
  induction cs as [| c cs IH]; intros this Hquiet; [reflexivity |].
  cbn in Hquiet. apply orb_false_elim in Hquiet as [Hc Hcs].
  cbn [run]. specialize (IH this Hcs).
  destruct c; try discriminate Hc; cbn [call].
  - destruct (splitView this) as [this1 out1] eqn:Hsplit.
    assert (this1 = this) as ->
      by (rewrite <- (splitView_state this), Hsplit; reflexivity).
    rewrite IH. reflexivity.
  - rewrite IH. reflexivity.
Qed.

Lemma quiet_run_silent (cs : list Call) (this : SpatialNavigator) :
  existsb prints_status cs = false -> last_status (snd (run cs this)) = None.
Proof.
  revert this.
  induction cs as [| c cs IH]; intros this Hquiet; [reflexivity |].
  cbn in Hquiet. apply orb_false_elim in Hquiet as [Hc Hcs].
  specialize (IH this Hcs).
  cbn [run]. destruct c; try discriminate Hc; cbn [call].
  - unfold splitView.
    destruct (ZoomLevel_eqb (m_currentLevel this) LEVEL_3_FOCUS);
      destruct (run cs this) as [this2 out2];
      cbn in *; rewrite IH; reflexivity.
  - destruct (run cs this) as [this2 out2]. cbn in *. exact IH.
Qed.

(** The output of a zoom call is its message followed by the three chunks
    of the status line; the message holds no status line. *)
Ltac split_status :=
  match goal with
  | |- exists message, ?out = _ /\ _ =>
      exists (firstn (List.length out - 3)%nat out);
      split; [reflexivity |];
      intros rest; cbn; destruct (last_status rest); reflexivity
  end.

(** X3: after any sequence of calls, the last status line on the console
    shows the level the navigator is at (as the number of its enumerator);
    there is a status line as soon as one call was [zoomIn], [zoomOut] or
    [printStatus]. *)
Theorem last_status_is_current_level (cs : list Call) (this : SpatialNavigator) :
  last_status (snd (run cs this)) =
    if existsb prints_status cs
    then Some (ZoomLevel_to_int (getCurrentLevel (fst (run cs this))))
    else None.
Proof.
  revert this.
  induction cs as [| c cs IH]; intros this; [reflexivity |].
  cbn [existsb].
  destruct (prints_status c) eqn:Hc; cbn [orb].
  - cbn [run].
    destruct (call c this) as [this1 out1] eqn:Hcall.
    specialize (IH this1).
    pose proof (quiet_run cs this1) as Hquiet.
    destruct (run cs this1) as [this2 out2].
    unfold getCurrentLevel in *. cbn [fst snd] in *.
    assert (Hout1 : exists message,
               out1 = message ++ printStatus this1 /\
               forall rest, last_status (message ++ rest) = last_status rest).
    { destruct c; try discriminate Hc.
      - by_level this; injection Hcall as <- <-; split_status.
      - by_level this;
          [ | | destruct (hasMultipleWindows appIndex) | ];
          injection Hcall as <- <-; split_status.
      - cbn in Hcall. injection Hcall as <- <-. exists []. split; reflexivity. }
    destruct Hout1 as (message & -> & Hmessage).
    rewrite <- app_assoc, Hmessage. cbn.
    rewrite IH.
    destruct (existsb prints_status cs).
    + reflexivity.
    + specialize (Hquiet eq_refl). injection Hquiet as ->. reflexivity.
  - destruct (existsb prints_status cs) eqn:Hcs.
    + cbn [run].
      destruct (call c this) as [this1 out1] eqn:Hcall.
      specialize (IH this1).
      destruct (run cs this1) as [this2 out2]. cbn [fst snd] in *.
      destruct c; try discriminate Hc; cbn [call] in Hcall.
      * unfold splitView in Hcall.
        destruct (ZoomLevel_eqb (m_currentLevel this) LEVEL_3_FOCUS);
          injection Hcall as <- <-; cbn; rewrite IH; reflexivity.
      * injection Hcall as <- <-. exact IH.
    + apply quiet_run_silent. cbn. rewrite Hc, Hcs. reflexivity.
Qed.

(** X4: [splitView] reports the rejection line exactly when the level is
    not Focus. *)
Theorem splitView_rejects_off_focus (this : SpatialNavigator) :
  snd (splitView this) =
    [Str "[Split] Can only split from a focused app (Level 3)."; Endl]
  <-> getCurrentLevel this <> LEVEL_3_FOCUS.
Proof.
  unfold splitView, getCurrentLevel.
  destruct (m_currentLevel this); cbn; split; intros H;
    try reflexivity; try discriminate.
  contradiction H; reflexivity.
Qed.

(** ** No-ops and strict moves *)

(** X5: [zoomIn] leaves the state as it was only at Focus, and [zoomOut]
    only at Root: at every other level the call changes the state. *)
Theorem zoom_noop_only_at_boundary (targetIndex : Z) (this : SpatialNavigator) :
  (fst (zoomIn targetIndex this) = this <-> m_currentLevel this = LEVEL_3_FOCUS) /\
  (fst (zoomOut this) = this <-> m_currentLevel this = LEVEL_1_ROOT).
Proof.
  split.
  - by_level this; split; intros H; try reflexivity; discriminate H.
  - by_level this; try (split; intros H; try reflexivity; discriminate H).
    destruct (hasMultipleWindows appIndex); cbn;
      split; intros H; discriminate H.
Qed.

(** X6: away from Focus, [zoomIn] moves to a strictly deeper level, and away
    from Root, [zoomOut] moves to a strictly shallower one. *)
Theorem zoom_strict (targetIndex : Z) (this : SpatialNavigator) :
  (m_currentLevel this <> LEVEL_3_FOCUS ->
   (depth (m_currentLevel this) <
      depth (m_currentLevel (fst (zoomIn targetIndex this))))%nat) /\
  (m_currentLevel this <> LEVEL_1_ROOT ->
   (depth (m_currentLevel (fst (zoomOut this))) <
      depth (m_currentLevel this))%nat).
Proof.
  split; intros Hlevel.
  - by_level this; try lia. contradiction Hlevel; reflexivity.
  - by_level this; try lia.
    + contradiction Hlevel; reflexivity.
    + destruct (hasMultipleWindows appIndex); cbn; lia.
Qed.

Lemma zoom_strict_witness :
  (depth (m_currentLevel newSpatialNavigator) <
     depth (m_currentLevel (fst (zoomIn 0 newSpatialNavigator))))%nat /\
  (depth (m_currentLevel (fst (zoomOut (mkNav LEVEL_3_FOCUS 0 1 (-1))))) <
     depth (m_currentLevel (mkNav LEVEL_3_FOCUS 0 1 (-1))))%nat.
Proof.
  split.
  - apply (proj1 (zoom_strict 0 newSpatialNavigator)). discriminate.
  - apply (proj2 (zoom_strict 0 (mkNav LEVEL_3_FOCUS 0 1 (-1)))). discriminate.
Defined.

(** ** Composition *)

Lemma run_cons (c : Call) (cs : list Call) (this : SpatialNavigator) :
  fst (run (c :: cs) this) = fst (run cs (after c this)).
Proof.
  unfold after. cbn [run].
  destruct (call c this) as [this1 out1]. cbn [fst].
  destruct (run cs this1). reflexivity.
Qed.

(** X7: two [zoomIn] calls reach Focus from every state; from a state at
    Root they select the sector and the application in that order. *)
Theorem two_zoomIn_reach_focus (s a : Z) (this : SpatialNavigator) :
  m_currentLevel (fst (run [ZoomIn s; ZoomIn a] this)) = LEVEL_3_FOCUS /\
  (m_currentLevel this = LEVEL_1_ROOT ->
   fst (run [ZoomIn s; ZoomIn a] this) =
     mkNav LEVEL_3_FOCUS s a (m_activeWindowIndex this)).
Proof.
  rewrite !run_cons. cbn [run fst].
  split.
  - by_level this; reflexivity.
  - by_level this; intros H; try discriminate H; reflexivity.
Qed.

(** X8: three [zoomOut] calls reach Root from every state, and never touch
    the window index. *)
Theorem three_zoomOut_reach_root (this : SpatialNavigator) :
  m_currentLevel (fst (run [ZoomOut; ZoomOut; ZoomOut] this)) = LEVEL_1_ROOT /\
  m_activeWindowIndex (fst (run [ZoomOut; ZoomOut; ZoomOut] this)) =
    m_activeWindowIndex this.
Proof.
  rewrite !run_cons. cbn [run fst].
  by_level this; try (split; reflexivity).
  destruct (hasMultipleWindows appIndex); cbn; split; reflexivity.
Qed.

(** X9: at Focus on an application with an even index, [zoomOut] followed by
    [zoomIn(w)] is back at Focus on the same sector and application, with
    window [w]. *)
Theorem picker_round_trip (w : Z) (this : SpatialNavigator) :
  m_currentLevel this = LEVEL_3_FOCUS ->
  Z.even (m_activeAppIndex this) = true ->
  fst (zoomIn w (fst (zoomOut this))) =
    mkNav LEVEL_3_FOCUS (m_activeSectorIndex this) (m_activeAppIndex this) w.
Proof.
  intros Hlevel Heven.
  rewrite (zoomOut_focus this Hlevel), hasMultipleWindows_even, Heven.
  reflexivity.
Qed.

Lemma picker_round_trip_witness :
  m_currentLevel (mkNav LEVEL_3_FOCUS 1 6 (-1)) = LEVEL_3_FOCUS /\
  Z.even (m_activeAppIndex (mkNav LEVEL_3_FOCUS 1 6 (-1))) = true /\
  fst (zoomIn 2 (fst (zoomOut (mkNav LEVEL_3_FOCUS 1 6 (-1))))) =
    mkNav LEVEL_3_FOCUS 1 6 2.
Proof.
  split; [reflexivity | split; [reflexivity |]].
  apply (picker_round_trip 2 (mkNav LEVEL_3_FOCUS 1 6 (-1)));
    reflexivity.
Defined.

(** X10: at Sector, [zoomIn(a)] followed by [zoomOut()] is back at Sector
    with the application index -1 when [a] is odd, and stops at the Picker
    of application [a] when [a] is even; the sector and window indices are
    the same either way. *)
Theorem sector_zoomIn_zoomOut (a : Z) (this : SpatialNavigator) :
  m_currentLevel this = LEVEL_2_SECTOR ->
  fst (zoomOut (fst (zoomIn a this))) =
    if Z.even a
    then mkNav LEVEL_3A_PICKER (m_activeSectorIndex this) a
               (m_activeWindowIndex this)
    else mkNav LEVEL_2_SECTOR (m_activeSectorIndex this) (-1)
               (m_activeWindowIndex this).
Proof.
  intros Hlevel.
  rewrite <- hasMultipleWindows_even.
  unfold zoomIn. rewrite Hlevel. cbn. unfold zoomOut. cbn.
  destruct (hasMultipleWindows a); reflexivity.
Qed.

Lemma sector_zoomIn_zoomOut_witness :
  m_currentLevel (mkNav LEVEL_2_SECTOR 4 (-1) (-1)) = LEVEL_2_SECTOR /\
  fst (zoomOut (fst (zoomIn 3 (mkNav LEVEL_2_SECTOR 4 (-1) (-1))))) =
    mkNav LEVEL_2_SECTOR 4 (-1) (-1) /\
  fst (zoomOut (fst (zoomIn 8 (mkNav LEVEL_2_SECTOR 4 (-1) (-1))))) =
    mkNav LEVEL_3A_PICKER 4 8 (-1).
Proof.
  split; [reflexivity | split].
  - apply (sector_zoomIn_zoomOut 3 (mkNav LEVEL_2_SECTOR 4 (-1) (-1))).
    reflexivity.
  - apply (sector_zoomIn_zoomOut 8 (mkNav LEVEL_2_SECTOR 4 (-1) (-1))).
    reflexivity.
Defined.

(** ** The reachable states *)

Ltac solve_consistent :=
  solve [ unfold consistent in *; cbn in *;
          intuition (try discriminate; try congruence) ].

Lemma consistent_step (c : Call) (this : SpatialNavigator) :
  consistent this -> consistent (after c this).
Proof.
  destruct c as [targetIndex | | | |]; intros Hthis.
  - by_level this; solve_consistent.
  - by_level this; try solve_consistent.
    destruct (hasMultipleWindows appIndex) eqn:Hwindows;
      [| solve_consistent].
    unfold consistent; cbn. rewrite <- hasMultipleWindows_even. exact Hwindows.
  - unfold after; cbn. rewrite splitView_state. exact Hthis.
  - exact Hthis.
  - exact Hthis.
Qed.

Lemma reachable_consistent (this : SpatialNavigator) :
  reachable this -> consistent this.
Proof.
  intros Hreach.
  induction Hreach as [| this c _ IH _].
  - unfold consistent; cbn. auto.
  - apply consistent_step. exact IH.
Qed.

(** The detour through the picker of application 0 sets the window index
    and is back at the sector. *)
Lemma through_picker_state (s w : Z) :
  fst (run (through_picker s w) newSpatialNavigator) =
    mkNav LEVEL_2_SECTOR s (-1) w.
Proof. reflexivity. Qed.

Lemma path_to_state (this : SpatialNavigator) :
  consistent this -> fst (run (path_to this) newSpatialNavigator) = this.
Proof.
  intros Hthis. unfold path_to.
  destruct this as [[| | |] s a w]; unfold consistent in Hthis; cbn in Hthis;
    cbn [m_currentLevel m_activeSectorIndex m_activeAppIndex
         m_activeWindowIndex].
  - destruct Hthis as [-> ->]. reflexivity.
  - subst a. reflexivity.
  - reflexivity.
  - rewrite run_app, through_picker_state, !run_cons. cbn [run fst].
    rewrite <- hasMultipleWindows_even in Hthis.
    unfold after, call, zoomIn; cbn. unfold zoomOut; cbn.
    rewrite Hthis. reflexivity.
Qed.

(** X11: the states a new navigator can get into are exactly these: at Root
    the sector and application indices are -1; at Sector the application
    index is -1; at Picker the application index is even; at Focus the
    indices are arbitrary; the window index is arbitrary at every level. *)
Theorem reachable_iff_consistent (this : SpatialNavigator) :
  reachable this <-> consistent this.
Proof.
  split.
  - apply reachable_consistent.
  - intros Hthis. rewrite <- (path_to_state this Hthis). apply run_reachable.
Qed.

(** X12: from every reachable state, three [zoomOut] calls end in the new
    navigator's state except for the window index, which is the one the
    state had. *)
Theorem three_zoomOut_reset (this : SpatialNavigator) :
  reachable this ->
  fst (run [ZoomOut; ZoomOut; ZoomOut] this) =
    mkNav LEVEL_1_ROOT (-1) (-1) (m_activeWindowIndex this).
Proof.
  intros Hreach. apply reachable_consistent in Hreach.
  rewrite !run_cons. cbn [run fst].
  unfold consistent in Hreach.
  by_level this.
  - destruct Hreach as [-> ->]. reflexivity.
  - subst appIndex. reflexivity.
  - destruct (hasMultipleWindows appIndex); reflexivity.
  - reflexivity.
Qed.

Lemma three_zoomOut_reset_witness :
  reachable (mkNav LEVEL_3_FOCUS 2 4 9) /\
  fst (run [ZoomOut; ZoomOut; ZoomOut] (mkNav LEVEL_3_FOCUS 2 4 9)) =
    mkNav LEVEL_1_ROOT (-1) (-1) 9.
Proof.
  assert (Hreach : reachable (mkNav LEVEL_3_FOCUS 2 4 9)).
  { exact (run_reachable (path_to (mkNav LEVEL_3_FOCUS 2 4 9))). }
  split; [exact Hreach |].
  apply (three_zoomOut_reset (mkNav LEVEL_3_FOCUS 2 4 9) Hreach).
Defined.

(** ** What a call leaves alone *)

(** X13: the selection is stable below the level that chose it: a call that
    starts and ends below Root keeps the sector index, and a call that
    starts and ends at Focus or Picker keeps the application index. *)
Theorem selection_stable (c : Call) (this : SpatialNavigator) :
  (m_currentLevel this <> LEVEL_1_ROOT ->
   m_currentLevel (after c this) <> LEVEL_1_ROOT ->
   m_activeSectorIndex (after c this) = m_activeSectorIndex this) /\
  ((m_currentLevel this = LEVEL_3_FOCUS \/
    m_currentLevel this = LEVEL_3A_PICKER) ->
   (m_currentLevel (after c this) = LEVEL_3_FOCUS \/
    m_currentLevel (after c this) = LEVEL_3A_PICKER) ->
   m_activeAppIndex (after c this) = m_activeAppIndex this).
Proof.
  destruct c as [targetIndex | | | |].
  - by_level this; intuition (try discriminate; try congruence).
  - by_level this;
      try solve [intuition (try discriminate; try congruence)].
    destruct (hasMultipleWindows appIndex); cbn in *;
      intuition (try discriminate; try congruence).
  - unfold after; cbn. rewrite splitView_state. auto.
  - cbn. auto.
  - cbn. auto.
Qed.

Lemma selection_stable_witness :
  m_activeSectorIndex (after (ZoomIn 7) (mkNav LEVEL_2_SECTOR 3 (-1) (-1))) = 3 /\
  m_activeAppIndex (after ZoomOut (mkNav LEVEL_3_FOCUS 3 4 (-1))) = 4.
Proof.
  split.
  - apply (proj1 (selection_stable (ZoomIn 7) (mkNav LEVEL_2_SECTOR 3 (-1) (-1))));
      discriminate.
  - apply (proj2 (selection_stable ZoomOut (mkNav LEVEL_3_FOCUS 3 4 (-1))));
      [left | right]; reflexivity.
Defined.

(** X14: only [zoomIn] at Picker writes the window index: a call after
    which the window index differs is a [zoomIn] issued at Picker, and the
    new value is its argument. *)
Theorem window_written_only_at_picker (c : Call) (this : SpatialNavigator) :
  m_activeWindowIndex (after c this) <> m_activeWindowIndex this ->
  m_currentLevel this = LEVEL_3A_PICKER /\
  c = ZoomIn (m_activeWindowIndex (after c this)).
Proof.
  destruct c as [targetIndex | | | |]; intros Hwindow.
  - by_level this; try (contradiction Hwindow; reflexivity).
    split; reflexivity.
  - contradiction Hwindow. apply zoomOut_window.
  - contradiction Hwindow. unfold after; cbn.
    rewrite splitView_state. reflexivity.
  - contradiction Hwindow. reflexivity.
  - contradiction Hwindow. reflexivity.
Qed.

Lemma window_written_only_at_picker_witness :
  m_activeWindowIndex (after (ZoomIn 3) (mkNav LEVEL_3A_PICKER 0 2 (-1))) <>
    m_activeWindowIndex (mkNav LEVEL_3A_PICKER 0 2 (-1)) /\
  m_currentLevel (mkNav LEVEL_3A_PICKER 0 2 (-1)) = LEVEL_3A_PICKER /\
  ZoomIn 3 =
    ZoomIn (m_activeWindowIndex
              (after (ZoomIn 3) (mkNav LEVEL_3A_PICKER 0 2 (-1)))).
Proof.
  assert (H : m_activeWindowIndex
                (after (ZoomIn 3) (mkNav LEVEL_3A_PICKER 0 2 (-1))) <>
              m_activeWindowIndex (mkNav LEVEL_3A_PICKER 0 2 (-1))).
  { cbn. discriminate. }
  split; [exact H |].
  apply (window_written_only_at_picker
           (ZoomIn 3) (mkNav LEVEL_3A_PICKER 0 2 (-1)) H).
Defined.

(** ** Where the indices come from *)

Lemma call_indices (Q : Z -> Prop) (c : Call) (this : SpatialNavigator) :
  Q (-1) ->
  (forall targetIndex, c = ZoomIn targetIndex -> Q targetIndex) ->
  indices_all Q this -> indices_all Q (after c this).
Proof.
  unfold indices_all.
  intros Hnone Harg (Hsector & Happ & Hwindow).
  destruct c as [targetIndex | | | |].
  - specialize (Harg targetIndex eq_refl). by_level this; auto.
  - by_level this; auto.
    destruct (hasMultipleWindows appIndex); cbn; auto.
  - unfold after; cbn. rewrite splitView_state. auto.
  - cbn. auto.
  - cbn. auto.
Qed.

Lemma run_indices (Q : Z -> Prop) (cs : list Call) (this : SpatialNavigator) :
  Q (-1) ->
  (forall targetIndex, In targetIndex (zoomIn_arguments cs) -> Q targetIndex) ->
  indices_all Q this -> indices_all Q (fst (run cs this)).
Proof.
  intros Hnone. revert this.
  induction cs as [| c cs IH]; intros this Hargs Hthis; [exact Hthis |].
  rewrite run_cons. apply IH.
  - intros targetIndex Hin. apply Hargs.
    destruct c; cbn; auto.
  - apply call_indices; [exact Hnone | | exact Hthis].
    intros targetIndex ->. apply Hargs. cbn. auto.
Qed.

(** X15: the navigator never makes up an index: after any sequence of calls
    on a new navigator, each of the three indices is -1 or the argument of
    one of the [zoomIn] calls of the sequence. *)
Theorem indices_from_arguments (cs : list Call) :
  indices_all (fun index => index = -1 \/ In index (zoomIn_arguments cs))
              (fst (run cs newSpatialNavigator)).
Proof.
  apply run_indices.
  - left. reflexivity.
  - intros targetIndex Hin. right. exact Hin.
  - unfold indices_all; cbn. auto.
Qed.
